(** * arxiv-latex-mcp: the tool server of [server/main.py]

    A shallow embedding of the two tool handlers of the server ([search]
    and [fetch]), of the dispatcher in front of them, and of the Python
    string and ElementTree operations they are written with, followed by
    the properties of the specification that concern them.

    Python [str] values are sequences of Unicode code points; [len] and
    slicing count code points, never bytes, so a string is a [list N]
    here.  Effects (the HTTP request, the flattening collaborator, the
    logger) are a trace of events threaded through a small state and
    exception monad; the collaborators themselves are fields of a
    [world]. *)

From Stdlib Require Import NArith Ascii String.
From stdpp Require Import gmap list.

(** ** Python strings *)

Abbreviation pystr := (list N) (only parsing).

(** An ASCII literal of the source, as code points. *)
Definition py (s : string) : pystr :=
  (λ a, N_of_ascii a) <$> list_ascii_of_string s.

(** The escape [\n]. *)
Definition LF : N := 10%N.

(** The one-character separator of [split("/")]. *)
Definition SLASH : N := 47%N.

(** [str.isspace] on one code point (CPython's [_PyUnicode_IsWhitespace]). *)
Definition isspace (c : N) : bool :=
  (((9 <=? c) && (c <=? 13)) || ((28 <=? c) && (c <=? 32))
   || (c =? 133) || (c =? 160) || (c =? 5760)
   || ((8192 <=? c) && (c <=? 8202))
   || (c =? 8232) || (c =? 8233) || (c =? 8239) || (c =? 8287)
   || (c =? 12288))%N.

Fixpoint lstrip (s : pystr) : pystr :=
  match s with
  | [] => []
  | c :: s' => if isspace c then lstrip s' else s
  end.

Definition rstrip (s : pystr) : pystr := reverse (lstrip (reverse s)).

(** [s.strip()] with no argument. *)
Definition strip (s : pystr) : pystr := rstrip (lstrip s).

(** [s.split(sep)] for a separator of one character, the way the source
    calls it: the pieces between the occurrences of [sep], all of them
    (empty ones too), left to right.  The result is never empty. *)
Fixpoint split (sep : N) (s : pystr) : list pystr :=
  match s with
  | [] => [[]]
  | c :: s' =>
      if (c =? sep)%N then [] :: split sep s'
      else match split sep s' with
           | piece :: pieces => (c :: piece) :: pieces
           | [] => [[c]]
           end
  end.

(** [s.startswith(p)]. *)
Fixpoint startswith (p s : pystr) : bool :=
  match p, s with
  | [], _ => true
  | a :: p', b :: s' => (a =? b)%N && startswith p' s'
  | _ :: _, [] => false
  end.

(** ** Exceptions and outcomes *)

(** The classes of [Exception] the handlers raise themselves, and
    [OtherError] for what a collaborator raises. *)
Inductive exc_class :=
| ValueError | AttributeError | TypeError | KeyError | IndexError
| OtherError (name : pystr).

(** An instance of [Exception]: its class and what [str(exc)] gives. *)
Record pyexc := PyExc { exc_type : exc_class; exc_str : pystr }.

Inductive outcome (A : Type) :=
| Ret (a : A)
| Raise (e : pyexc).
Arguments Ret {A} a.
Arguments Raise {A} e.

#[global] Instance outcome_ret : MRet outcome := λ A a, Ret a.

#[global] Instance outcome_bind : MBind outcome := λ A B k o,
  match o with
  | Ret a => k a
  | Raise e => Raise e
  end.

(** [l[-1]]. *)
Definition index_last {A} (l : list A) : outcome A :=
  match last l with
  | Some x => Ret x
  | None => Raise (PyExc IndexError (py "list index out of range"))
  end.

(** ** Values, records and the parsed feed *)

(** What an argument mapping holds: a [str], or any other JSON value,
    kept as the text that [str()] and [format()] give for it. *)
Inductive pyval :=
| VStr (s : pystr)
| VObj (shown : pystr).

(** [f"{v}"], [template.format(v)] and [%s]. *)
Definition format (v : pyval) : pystr :=
  match v with
  | VStr s => s
  | VObj shown => shown
  end.

(** [mcp.types.TextContent]; [metadata] is an extra field, absent when
    the constructor is not given it. *)
Module TextContent.
Record t := mk {
  type : pystr;
  text : pystr;
  metadata : option (gmap (list N) pyval)
}.
End TextContent.

Module SearchResultModel.
Record t := mk {
  id : pystr;
  title : pystr;
  text : pystr;
  url : pystr
}.
End SearchResultModel.

(** [xml.etree.ElementTree]: an element with its tag, its text ([None]
    when it has none) and its children in document order. *)
Module ET.
#[warnings="-register-all"]
Inductive Element :=
| mkElement (tag : pystr) (text : option pystr) (children : list Element).

Definition tag (e : Element) : pystr :=
  match e with mkElement t _ _ => t end.
Definition text (e : Element) : option pystr :=
  match e with mkElement _ x _ => x end.
Definition children (e : Element) : list Element :=
  match e with mkElement _ _ c => c end.

(** [e.findall(tag)]: the direct children with that tag. *)
Definition findall (path : pystr) (e : Element) : list Element :=
  filter (λ c, tag c = path) (children e).

(** [e.find(tag)]: the first of them, or [None]. *)
Definition find (path : pystr) (e : Element) : option Element :=
  head (findall path e).
End ET.

Definition ATOM_entry : pystr := py "{http://www.w3.org/2005/Atom}entry".
Definition ATOM_id : pystr := py "{http://www.w3.org/2005/Atom}id".
Definition ATOM_title : pystr := py "{http://www.w3.org/2005/Atom}title".
Definition ATOM_summary : pystr := py "{http://www.w3.org/2005/Atom}summary".

(** [ARXIV_API_URL.format(query)]. *)
Definition ARXIV_API_URL_format (query : pyval) : pystr :=
  py "https://export.arxiv.org/api/query?search_query=" ++ format query
  ++ py "&max_results=10".

(** ** The collaborators and the effects *)

(** What the handlers call outside the server.  [session_get_text] is the
    GET of line 95 and the body read of line 96, [fromstring] is
    [ET.fromstring], [process_latex_source] is the flattening library;
    each returns or raises.  The library's [None] is [None] here. *)
Record world := World {
  session_get_text : pystr → outcome pystr;
  fromstring : pystr → outcome ET.Element;
  process_latex_source : pyval → outcome (option pystr)
}.

Inductive event :=
| HttpGet (url : pystr)
| ProcessLatexSource (arxiv_id : pyval)
| LogInfo (msg : pystr)
| LogException (msg : pystr).

(** A computation: from the events so far to an outcome and the events
    after it. *)
Definition M (A : Type) : Type := list event → outcome A * list event.

#[global] Instance M_ret : MRet M := λ A a tr, (Ret a, tr).

#[global] Instance M_bind : MBind M := λ A B k m tr,
  match m tr with
  | (Ret a, tr') => k a tr'
  | (Raise e, tr') => (Raise e, tr')
  end.

Definition raise {A} (e : pyexc) : M A := λ tr, (Raise e, tr).
Definition emit (ev : event) : M unit := λ tr, (Ret tt, tr ++ [ev]).
Definition lift {A} (o : outcome A) : M A := λ tr, (o, tr).

(** [try: body / except Exception as exc: handler exc]. *)
Definition try_except {A} (body : M A) (handler : pyexc → M A) : M A :=
  λ tr, match body tr with
        | (Ret a, tr') => (Ret a, tr')
        | (Raise exc, tr') => handler exc tr'
        end.

(** One call, from an empty trace. *)
Definition run {A} (m : M A) : outcome A * list event := m [].

(** ** Operations on the argument mapping *)

(** [not args]: [None] and the empty mapping are falsy. *)
Definition not_ (args : option (gmap (list N) pyval)) : bool :=
  match args with
  | None => true
  | Some d => bool_decide (d = ∅)
  end.

(** [key not in args]; [or] evaluates it only when [not args] is false,
    that is on a mapping. *)
Definition not_in (key : pystr) (args : option (gmap (list N) pyval)) : bool :=
  match args with
  | None => true
  | Some d => bool_decide (d !! key = None)
  end.

(** [args[key]]. *)
Definition getitem (args : option (gmap (list N) pyval)) (key : pystr)
  : outcome pyval :=
  match args with
  | None =>
      Raise (PyExc TypeError (py "'NoneType' object is not subscriptable"))
  | Some d =>
      match d !! key with
      | Some v => Ret v
      | None => Raise (PyExc KeyError (py "'" ++ key ++ py "'"))
      end
  end.

(** ** The search handler *)

(** [x.text], where [x] is what [find] returned. *)
Definition getattr_text (x : option ET.Element) : outcome (option pystr) :=
  match x with
  | Some e => Ret (ET.text e)
  | None =>
      Raise (PyExc AttributeError
               (py "'NoneType' object has no attribute 'text'"))
  end.

(** [x.split("/")], where [x] is a [text]. *)
Definition call_split (sep : N) (x : option pystr) : outcome (list pystr) :=
  match x with
  | Some s => Ret (split sep s)
  | None =>
      Raise (PyExc AttributeError
               (py "'NoneType' object has no attribute 'split'"))
  end.

(** [x.strip()], where [x] is a [text]. *)
Definition call_strip (x : option pystr) : outcome pystr :=
  match x with
  | Some s => Ret (strip s)
  | None =>
      Raise (PyExc AttributeError
               (py "'NoneType' object has no attribute 'strip'"))
  end.

(** The string literal of line 111, code point by code point as the
    source file holds it: U+00E2, U+20AC, U+00A6. *)
Definition MARKER : pystr := [226%N; 8364%N; 166%N].

(** The ellipsis glyph, U+2026. *)
Definition ELLIPSIS : N := 8230%N.

(** Line 111: [summary[:500] + (MARKER if len(summary) > 500 else "")]. *)
Definition truncated (summary : pystr) : pystr :=
  take 500 summary ++ (if bool_decide (500 < length summary) then MARKER else []).

(** The body of the loop of lines 101 to 114, up to the record. *)
Definition entry_record (entry : ET.Element) : outcome SearchResultModel.t :=
  id_text ← getattr_text (ET.find ATOM_id entry);
  pieces ← call_split SLASH id_text;
  arxiv_id ← index_last pieces;
  title_text ← getattr_text (ET.find ATOM_title entry);
  title ← call_strip title_text;
  summary_text ← getattr_text (ET.find ATOM_summary entry);
  summary ← call_strip summary_text;
  let url := py "https://arxiv.org/abs/" ++ arxiv_id in
  mret (SearchResultModel.mk arxiv_id title (truncated summary) url).

(** The loop itself: [results.append] entry after entry, the first
    exception ends it. *)
Fixpoint parse_entries (entries : list ET.Element)
    (results : list SearchResultModel.t) : outcome (list SearchResultModel.t) :=
  match entries with
  | [] => Ret results
  | entry :: rest =>
      r ← entry_record entry;
      parse_entries rest (results ++ [r])
  end.

(** The four [+=] of lines 124 to 127. *)
Definition append_result (formatted_results : pystr) (result : SearchResultModel.t)
  : pystr :=
  let formatted_results :=
    formatted_results ++ (py "ID: " ++ SearchResultModel.id result ++ [LF]) in
  let formatted_results :=
    formatted_results ++ (py "Title: " ++ SearchResultModel.title result ++ [LF]) in
  let formatted_results :=
    formatted_results ++ (py "Summary: " ++ SearchResultModel.text result ++ [LF]) in
  formatted_results ++ (py "URL: " ++ SearchResultModel.url result ++ [LF; LF]).

Definition HEADER : pystr := py "Search Results:" ++ [LF; LF].
Definition NO_PAPERS : pystr := py "No papers found for the given query.".

(** Lines 117 to 129: the text block of a sequence of records. *)
Definition format_results (results : list SearchResultModel.t)
  : list TextContent.t :=
  match results with
  | [] => [TextContent.mk (py "text") NO_PAPERS None]
  | _ :: _ =>
      [TextContent.mk (py "text") (foldl append_result HEADER results) None]
  end.

Definition session_get (w : world) (url : pystr) : M pystr :=
  _ ← emit (HttpGet url);
  lift (session_get_text w url).

Definition _handle_search (w : world) (args : option (gmap (list N) pyval))
  : M (list TextContent.t) :=
  if not_ args || not_in (py "query") args then
    raise (PyExc ValueError (py "Missing required argument: query"))
  else
    query ← lift (getitem args (py "query"));
    data ← session_get w (ARXIV_API_URL_format query);
    root ← lift (fromstring w data);
    results ← lift (parse_entries (ET.findall ATOM_entry root) []);
    mret (format_results results).

(** ** The fetch handler *)

Definition instructions : pystr :=
  [LF; LF] ++ py "IMPORTANT INSTRUCTIONS FOR RENDERING:" ++ [LF]
  ++ py "When discussing this paper, please use dollar sign notation ($...$) "
  ++ py "for inline equations and double dollar signs ($...$) for display "
  ++ py "equations when providing responses that include LaTeX mathematical expressions.".

(** [flattened + instructions]. *)
Definition add_str (flattened : option pystr) (suffix : pystr) : outcome pystr :=
  match flattened with
  | Some t => Ret (t ++ suffix)
  | None =>
      Raise (PyExc TypeError
               (py "unsupported operand type(s) for +: 'NoneType' and 'str'"))
  end.

Definition call_process_latex_source (w : world) (arxiv_id : pyval)
  : M (option pystr) :=
  _ ← emit (ProcessLatexSource arxiv_id);
  lift (process_latex_source w arxiv_id).

Definition abs_url (arxiv_id : pyval) : pystr :=
  py "https://arxiv.org/abs/" ++ format arxiv_id.

Definition _handle_fetch (w : world) (args : option (gmap (list N) pyval))
  : M (list TextContent.t) :=
  if not_ args || not_in (py "id") args then
    raise (PyExc ValueError (py "Missing required argument: id"))
  else
    arxiv_id ← lift (getitem args (py "id"));
    _ ← emit (LogInfo (py "Fetching & processing arXiv paper: " ++ format arxiv_id));
    try_except
      (flattened ← call_process_latex_source w arxiv_id;
       body ← lift (add_str flattened instructions);
       mret [TextContent.mk (py "text") body
               (Some (list_to_map
                  [(py "id", arxiv_id);
                   (py "title", VStr (py "arXiv:" ++ format arxiv_id));
                   (py "url", VStr (abs_url arxiv_id));
                   (py "source", VStr (py "arXiv"))]))])
      (λ exc,
         _ ← emit (LogException (py "Error processing arXiv paper " ++ format arxiv_id));
         mret [TextContent.mk (py "text") (exc_str exc)
                 (Some (list_to_map
                    [(py "id", arxiv_id);
                     (py "title", VStr (py "Error: " ++ format arxiv_id));
                     (py "url", VStr (abs_url arxiv_id))]))]).

(** ** The dispatcher *)

Definition handle_call_tool (w : world) (name : pystr)
    (arguments : option (gmap (list N) pyval)) : M (list TextContent.t) :=
  if bool_decide (name = py "search") then _handle_search w arguments
  else if bool_decide (name = py "fetch") then _handle_fetch w arguments
  else raise (PyExc ValueError (py "Unknown tool: " ++ name)).


(** An entry lacks a required field when [find] has no child to give
    for it. *)
Definition missing_field (entry : ET.Element) : Prop :=
  ET.find ATOM_id entry = None
  ∨ ET.find ATOM_title entry = None
  ∨ ET.find ATOM_summary entry = None.

(** ** The layout of the formatted text *)

(** What one pass of the loop of lines 123 to 127 adds. *)
Definition record_block (r : SearchResultModel.t) : pystr :=
  py "ID: " ++ SearchResultModel.id r ++ [LF]
  ++ py "Title: " ++ SearchResultModel.title r ++ [LF]
  ++ py "Summary: " ++ SearchResultModel.text r ++ [LF]
  ++ py "URL: " ++ SearchResultModel.url r ++ [LF; LF].

(** The lines of a record: the four labelled ones and the blank one. *)
Definition record_lines (r : SearchResultModel.t) : list pystr :=
  [py "ID: " ++ SearchResultModel.id r;
   py "Title: " ++ SearchResultModel.title r;
   py "Summary: " ++ SearchResultModel.text r;
   py "URL: " ++ SearchResultModel.url r;
   []].

(** No field of the record holds a line break. *)
Definition single_line_record (r : SearchResultModel.t) : Prop :=
  (LF ∉ SearchResultModel.id r) ∧ (LF ∉ SearchResultModel.title r)
  ∧ (LF ∉ SearchResultModel.text r) ∧ (LF ∉ SearchResultModel.url r).

(** The lines of a text that start with "ID:". *)
Definition id_lines (body : pystr) : list pystr :=
  filter (λ line, startswith (py "ID:") line = true) (split LF body).

(** ** Sample inputs *)

Module Sample.
Definition field (tag text : pystr) : ET.Element :=
  ET.mkElement tag (Some text) [].

(** An entry as the feed has them. *)
Definition entry : ET.Element :=
  ET.mkElement ATOM_entry None
    [field ATOM_id (py "http://arxiv.org/abs/2403.12345v2");
     field ATOM_title (py "  A title ");
     field ATOM_summary (py " A summary. ")].

(** An entry without its title. *)
Definition entry_no_title : ET.Element :=
  ET.mkElement ATOM_entry None
    [field ATOM_id (py "http://arxiv.org/abs/2403.12345v2");
     field ATOM_summary (py " A summary. ")].

(** An entry whose summary has 501 characters. *)
Definition entry_long : ET.Element :=
  ET.mkElement ATOM_entry None
    [field ATOM_id (py "http://arxiv.org/abs/2403.12345v2");
     field ATOM_title (py "A title");
     field ATOM_summary (replicate 501 97%N)].

(** An entry whose summary has a line break in it. *)
Definition entry_two_lines : ET.Element :=
  ET.mkElement ATOM_entry None
    [field ATOM_id (py "http://arxiv.org/abs/2403.12345v2");
     field ATOM_title (py "A title");
     field ATOM_summary (py "First line" ++ [LF] ++ py "ID: 0000.00000")].

(** The record of [entry]. *)
Definition record : SearchResultModel.t :=
  SearchResultModel.mk (py "2403.12345v2") (py "A title") (py "A summary.")
    (py "https://arxiv.org/abs/2403.12345v2").

Definition feed (entries : list ET.Element) : ET.Element :=
  ET.mkElement (py "{http://www.w3.org/2005/Atom}feed") None entries.

(** A world whose feed has the given entries, and whose flattening
    collaborator does as told. *)
Definition world_of (entries : list ET.Element)
    (flatten : outcome (option pystr)) : world :=
  World (λ _, Ret (py "<feed/>")) (λ _, Ret (feed entries)) (λ _, flatten).

Definition failure : pyexc :=
  PyExc (OtherError (py "RuntimeError")) (py "download failed").

Definition args (key : pystr) (v : pystr) : option (gmap (list N) pyval) :=
  Some {[ key := VStr v ]}.
End Sample.

(** ** The tool catalog *)

(** The literals of an input schema: strings, lists and dictionaries in
    the order they are written. *)
#[warnings="-register-all"]
Inductive json :=
| JStr (s : pystr)
| JList (items : list json)
| JDict (items : list (pystr * json)).

(** The value written for [key] in a dictionary literal (the literals of
    the source write no key twice). *)
Fixpoint assoc (key : pystr) (items : list (pystr * json)) : option json :=
  match items with
  | [] => None
  | (k, v) :: rest => if bool_decide (k = key) then Some v else assoc key rest
  end.

(** [j.get(key)] on a dictionary literal. *)
Definition jget (key : pystr) (j : json) : option json :=
  match j with
  | JDict items => assoc key items
  | _ => None
  end.

(** [mcp.types.Tool]. *)
Module Tool.
Record t := mk {
  name : pystr;
  description : pystr;
  inputSchema : json
}.
End Tool.

(** Lines 43 to 72. *)
Definition handle_list_tools : list Tool.t :=
  [Tool.mk (py "search")
     (py "Search arXiv by free-text query and return matching papers")
     (JDict
        [(py "type", JStr (py "object"));
         (py "properties",
          JDict [(py "query",
                  JDict [(py "type", JStr (py "string"));
                         (py "description", JStr (py "Free-text search terms"))])]);
         (py "required", JList [JStr (py "query")])]);
   Tool.mk (py "fetch")
     (py "Retrieve the full LaTeX source (flattened) for a specific arXiv paper")
     (JDict
        [(py "type", JStr (py "object"));
         (py "properties",
          JDict [(py "id",
                  JDict [(py "type", JStr (py "string"));
                         (py "description",
                          JStr (py "The document id returned by the search tool (arXiv ID, e.g. '2403.12345')"))])]);
         (py "required", JList [JStr (py "id")])])].

(** The strings of [schema["required"]]. *)
Definition required_keys (schema : json) : list pystr :=
  match jget (py "required") schema with
  | Some (JList items) =>
      omap (λ j, match j with JStr s => Some s | _ => None end) items
  | _ => []
  end.

(** [schema["properties"][key]["type"]]. *)
Definition property_type (key : pystr) (schema : json) : option json :=
  match jget (py "properties") schema with
  | Some properties =>
      match jget key properties with
      | Some property => jget (py "type") property
      | None => None
      end
  | None => None
  end.

(** ** More of the string operations *)

(** [sep.join(pieces)] for a separator of one character. *)
Fixpoint join (sep : N) (pieces : list pystr) : pystr :=
  match pieces with
  | [] => []
  | [piece] => piece
  | piece :: rest => piece ++ sep :: join sep rest
  end.

(** The tags of the three fields the loop reads from an entry. *)
Definition FIELDS : list pystr := [ATOM_id; ATOM_title; ATOM_summary].

(** The messages of the two rejections of the dispatcher and of the
    handlers. *)
Definition unknown_tool (name : pystr) : pyexc :=
  PyExc ValueError (py "Unknown tool: " ++ name).
Definition missing_argument (key : pystr) : pyexc :=
  PyExc ValueError (py "Missing required argument: " ++ key).

(** The two blocks [_handle_fetch] returns, lines 149 to 160 and 163 to
    173. *)
Definition success_block (arxiv_id : pyval) (flattened : pystr) : TextContent.t :=
  TextContent.mk (py "text") (flattened ++ instructions)
    (Some (list_to_map
       [(py "id", arxiv_id);
        (py "title", VStr (py "arXiv:" ++ format arxiv_id));
        (py "url", VStr (abs_url arxiv_id));
        (py "source", VStr (py "arXiv"))])).

Definition error_block (arxiv_id : pyval) (exc : pyexc) : TextContent.t :=
  TextContent.mk (py "text") (exc_str exc)
    (Some (list_to_map
       [(py "id", arxiv_id);
        (py "title", VStr (py "Error: " ++ format arxiv_id));
        (py "url", VStr (abs_url arxiv_id))])).

(** What [None + instructions] raises. *)
Definition none_plus_str : pyexc :=
  PyExc TypeError (py "unsupported operand type(s) for +: 'NoneType' and 'str'").

(** ** Facts about [split] *)

Lemma split_nonempty sep s : split sep s ≠ [].
Proof.
  destruct s as [|c s]; simpl; [done|].
  destruct (c =? sep)%N; [done|]. by destruct (split sep s).
Qed.

Lemma split_cons_sep sep s : split sep (sep :: s) = [] :: split sep s.
Proof. simpl. by rewrite N.eqb_refl. Qed.

(** Splitting at the first separator: a piece free of [sep], then [sep]. *)
Lemma split_app_sep sep (a rest : pystr) :
  sep ∉ a → split sep (a ++ sep :: rest) = a :: split sep rest.
Proof.
  induction a as [|c a IH]; intros Hn.
  - apply split_cons_sep.
  - apply not_elem_of_cons in Hn as [Hc Ha].
    change ((c :: a) ++ sep :: rest) with (c :: (a ++ sep :: rest)).
    cbn [split]. rewrite (IH Ha).
    destruct (N.eqb_spec c sep) as [->|_]; [done|reflexivity].
Qed.

Lemma split_no_sep sep (a : pystr) : sep ∉ a → split sep a = [a].
Proof.
  induction a as [|c a IH]; intros Hn; [done|].
  apply not_elem_of_cons in Hn as [Hc Ha].
  cbn [split]. rewrite (IH Ha).
  destruct (N.eqb_spec c sep) as [->|_]; [done|reflexivity].
Qed.

Lemma split_singleton sep (s p : pystr) :
  split sep s = [p] → s = p ∧ sep ∉ s.
Proof.
  revert p. induction s as [|c s IH]; intros p; cbn [split].
  - intros [= <-]. split; [done|apply not_elem_of_nil].
  - destruct (N.eqb_spec c sep) as [->|Hc].
    + intros [= _ E]. by destruct (split_nonempty sep s).
    + destruct (split sep s) as [|q qs] eqn:E;
        [by destruct (split_nonempty sep s)|intros [= <- ->]].
      destruct (IH q eq_refl) as [-> Hq]. split; [done|].
        rewrite not_elem_of_cons. split; [by intros ->|done].
Qed.

(** The last piece is what follows the final separator. *)
Lemma split_last sep (s : pystr) :
  ∃ seg, last (split sep s) = Some seg ∧ (sep ∉ seg)
         ∧ (s = seg ∨ ∃ pre, s = pre ++ sep :: seg).
Proof.
  induction s as [|c s (seg & Hl & Hn & Hs)].
  - exists []. split_and!; [done|apply not_elem_of_nil|by left].
  - cbn [split]. destruct (N.eqb_spec c sep) as [->|Hc].
    + exists seg. split_and!; [|done|].
      * destruct (split sep s) eqn:E; [by destruct (split_nonempty sep s)|].
        by rewrite last_cons, Hl.
      * right. destruct Hs as [->|[pre ->]]; [by exists []|by exists (sep :: pre)].
    + destruct (split sep s) as [|p ps] eqn:E; [by destruct (split_nonempty sep s)|].
      destruct ps as [|q ps].
      * destruct (split_singleton sep s p E) as [-> Hp].
        exists (c :: p). split_and!; [done| |by left].
        rewrite not_elem_of_cons. split; [by intros ->|done].
      * exists seg. split_and!; [|done|].
        -- exact Hl.
        -- destruct Hs as [->|[pre ->]].
           ++ exfalso. rewrite (split_no_sep sep seg Hn) in E. by simplify_eq.
           ++ right. by exists (c :: pre).
Qed.

(** ** Validation and dispatch *)

Lemma call_search (w : world) arguments :
  handle_call_tool w (py "search") arguments = _handle_search w arguments.
Proof. reflexivity. Qed.

Lemma call_fetch (w : world) arguments :
  handle_call_tool w (py "fetch") arguments = _handle_fetch w arguments.
Proof. reflexivity. Qed.

(** A mapping that holds the key passes the guard of a handler. *)
Lemma guard_present (key : pystr) (d : gmap (list N) pyval) v :
  d !! key = Some v →
  not_ (Some d) || not_in key (Some d) = false
  ∧ getitem (Some d) key = Ret v.
Proof.
  intros Hk. unfold not_, not_in, getitem. rewrite Hk. split; [|done].
  rewrite orb_false_iff. split; apply bool_decide_eq_false_2.
  - intros ->. by rewrite lookup_empty in Hk.
  - done.
Qed.

(** A mapping without the key, the empty one included, does not. *)
Lemma guard_absent (key : pystr) (d : gmap (list N) pyval) :
  d !! key = None → not_ (Some d) || not_in key (Some d) = true.
Proof.
  intros Hk. unfold not_, not_in. rewrite orb_true_iff. right.
  by apply bool_decide_eq_true_2.
Qed.

(** C9: a tool name other than "search" and "fetch" is rejected by the
    dispatcher with a [ValueError] that carries the name; no content
    block is returned and nothing outside the server is called. *)
Theorem unknown_tool_rejected (w : world) (name : pystr) arguments :
  name ≠ py "search" → name ≠ py "fetch" →
  run (handle_call_tool w name arguments)
  = (Raise (PyExc ValueError (py "Unknown tool: " ++ name)), []).
Proof.
  intros Hs Hf. unfold handle_call_tool.
  by rewrite !bool_decide_eq_false_2.
Qed.

Lemma unknown_tool_rejected_witness :
  run (handle_call_tool (Sample.world_of [] (Ret None)) (py "delete") None)
  = (Raise (PyExc ValueError (py "Unknown tool: delete")), []).
Proof.
  apply (unknown_tool_rejected _ (py "delete") None); discriminate.
Defined.

(** C10: for both tools a call without an argument mapping ([None]) does
    what a call with the empty mapping does: it is rejected with the
    missing-argument error of the tool, naming "query" for search and "id"
    for fetch, before anything outside the server is called. *)
Theorem none_like_empty_mapping (w : world) :
  run (handle_call_tool w (py "search") None)
  = run (handle_call_tool w (py "search") (Some ∅))
  ∧ run (handle_call_tool w (py "search") None)
    = (Raise (PyExc ValueError (py "Missing required argument: query")), [])
  ∧ run (handle_call_tool w (py "fetch") None)
    = run (handle_call_tool w (py "fetch") (Some ∅))
  ∧ run (handle_call_tool w (py "fetch") None)
    = (Raise (PyExc ValueError (py "Missing required argument: id")), []).
Proof. by split_and!. Qed.

(** C2, as the code has it: a mapping in which "query" is absent is
    rejected with the missing-argument error naming "query", with no
    content block and no network call; a mapping in which "query" is
    present, whatever it maps to, passes the guard, and the one GET goes
    out with the value put into the URL as it is. *)
Theorem search_requires_query_present (w : world) (d : gmap (list N) pyval) :
  (d !! py "query" = None →
   run (handle_call_tool w (py "search") (Some d))
   = (Raise (PyExc ValueError (py "Missing required argument: query")), []))
  ∧ (∀ query, d !! py "query" = Some query →
     (run (handle_call_tool w (py "search") (Some d))).2
     = [HttpGet (ARXIV_API_URL_format query)]).
Proof.
  rewrite call_search. unfold run, _handle_search. split.
  - intros Hk. by rewrite (guard_absent _ _ Hk).
  - intros query Hk. destruct (guard_present _ _ _ Hk) as [-> ->].
    unfold session_get, mbind, M_bind, lift, emit. simpl.
    destruct (session_get_text w _); [|done].
    destruct (fromstring w _); [|done].
    by destruct (parse_entries _ _).
Qed.

Lemma search_requires_query_present_witness :
  run (handle_call_tool (Sample.world_of [] (Ret None)) (py "search")
         (Sample.args (py "id") (py "2403.12345")))
  = (Raise (PyExc ValueError (py "Missing required argument: query")), [])
  ∧ (run (handle_call_tool (Sample.world_of [] (Ret None)) (py "search")
            (Sample.args (py "query") (py "cats")))).2
    = [HttpGet (ARXIV_API_URL_format (VStr (py "cats")))].
Proof.
  split.
  - apply (search_requires_query_present _
             {[ py "id" := VStr (py "2403.12345") ]}).
    reflexivity.
  - apply (search_requires_query_present _
             {[ py "query" := VStr (py "cats") ]}).
    reflexivity.
Defined.

(** C2 as stated fails: with "query" mapped to the empty string the call
    is not rejected; the GET is made and a content block comes back. *)
Lemma search_empty_query_not_rejected :
  run (handle_call_tool (Sample.world_of [] (Ret None)) (py "search")
         (Sample.args (py "query") []))
  = (Ret [TextContent.mk (py "text") NO_PAPERS None],
     [HttpGet (py "https://export.arxiv.org/api/query?search_query=&max_results=10")]).
Proof. reflexivity. Qed.

(** ** The fetch handler *)

(** C1: when "id" is present and the flattening collaborator raises, the
    call is not rejected: it returns exactly one content block whose text
    is the message of the exception and whose metadata title starts with
    "Error: "; the exception stops in the handler. *)
Theorem fetch_failure_recovered (w : world) (d : gmap (list N) pyval)
    (arxiv_id : pyval) (exc : pyexc) :
  d !! py "id" = Some arxiv_id →
  process_latex_source w arxiv_id = Raise exc →
  ∃ block md title,
    (run (handle_call_tool w (py "fetch") (Some d))).1 = Ret [block]
    ∧ TextContent.text block = exc_str exc
    ∧ TextContent.metadata block = Some md
    ∧ md !! py "title" = Some (VStr title)
    ∧ title = py "Error: " ++ format arxiv_id
    ∧ startswith (py "Error: ") title = true.
Proof.
  intros Hk Hp. rewrite call_fetch. unfold run, _handle_fetch.
  destruct (guard_present _ _ _ Hk) as [-> ->].
  unfold try_except, call_process_latex_source, mbind, M_bind, lift, emit.
  simpl. rewrite Hp. eexists _, _, _. by split_and!.
Qed.

Lemma fetch_failure_recovered_witness :
  ∃ block,
    (run (handle_call_tool (Sample.world_of [] (Raise Sample.failure))
            (py "fetch") (Sample.args (py "id") (py "2403.12345")))).1
    = Ret [block]
    ∧ TextContent.text block = py "download failed".
Proof.
  destruct (fetch_failure_recovered
              (Sample.world_of [] (Raise Sample.failure))
              {[ py "id" := VStr (py "2403.12345") ]}
              (VStr (py "2403.12345")) Sample.failure)
    as (block & md & title & Hrun & Htext & _); [reflexivity..|].
  exists block. split; [exact Hrun|exact Htext].
Defined.

(** C4: when "id" is present and the flattening collaborator returns the
    text [t], exactly one content block is returned; its text is [t]
    followed by the rendering instructions, and its metadata has the
    identifier under "id", "arXiv:" and the identifier under "title", the
    abstract URL of the identifier under "url" and "arXiv" under
    "source". *)
Theorem fetch_success_block (w : world) (d : gmap (list N) pyval)
    (arxiv_id : pyval) (t : pystr) :
  d !! py "id" = Some arxiv_id →
  process_latex_source w arxiv_id = Ret (Some t) →
  ∃ block md,
    (run (handle_call_tool w (py "fetch") (Some d))).1 = Ret [block]
    ∧ TextContent.text block = t ++ instructions
    ∧ instructions `suffix_of` TextContent.text block
    ∧ TextContent.metadata block = Some md
    ∧ md !! py "id" = Some arxiv_id
    ∧ md !! py "title" = Some (VStr (py "arXiv:" ++ format arxiv_id))
    ∧ md !! py "url"
      = Some (VStr (py "https://arxiv.org/abs/" ++ format arxiv_id))
    ∧ md !! py "source" = Some (VStr (py "arXiv")).
Proof.
  intros Hk Hp. rewrite call_fetch. unfold run, _handle_fetch.
  destruct (guard_present _ _ _ Hk) as [-> ->].
  unfold try_except, call_process_latex_source, mbind, M_bind, lift, emit.
  simpl. rewrite Hp. eexists _, _. split_and!; try reflexivity.
  by apply suffix_app_r.
Qed.

Lemma fetch_success_block_witness :
  ∃ block,
    (run (handle_call_tool (Sample.world_of [] (Ret (Some (py "\title{T}"))))
            (py "fetch") (Sample.args (py "id") (py "2403.12345")))).1
    = Ret [block]
    ∧ TextContent.text block = py "\title{T}" ++ instructions.
Proof.
  destruct (fetch_success_block
              (Sample.world_of [] (Ret (Some (py "\title{T}"))))
              {[ py "id" := VStr (py "2403.12345") ]}
              (VStr (py "2403.12345")) (py "\title{T}"))
    as (block & md & Hrun & Htext & _); [reflexivity..|].
  exists block. split; [exact Hrun|exact Htext].
Defined.


(** ** The feed parser *)

Lemma index_last_split sep (s : pystr) :
  ∃ seg, index_last (split sep s) = Ret seg ∧ (sep ∉ seg)
         ∧ (s = seg ∨ ∃ pre, s = pre ++ sep :: seg).
Proof.
  destruct (split_last sep s) as (seg & Hl & Hn & Hs).
  exists seg. unfold index_last. by rewrite Hl.
Qed.

(** The body of the loop returns a record or raises [AttributeError]. *)
Lemma entry_record_outcome (entry : ET.Element) :
  (∃ r, entry_record entry = Ret r)
  ∨ (∃ exc, entry_record entry = Raise exc ∧ exc_type exc = AttributeError).
Proof.
  unfold entry_record, mbind, outcome_bind, mret, outcome_ret.
  destruct (ET.find ATOM_id entry) as [e1|]; [|right; by eexists].
  cbn [getattr_text]. destruct (ET.text e1) as [t1|]; [|right; by eexists].
  cbn [call_split]. destruct (index_last_split SLASH t1) as (seg & -> & _).
  destruct (ET.find ATOM_title entry) as [e2|]; [|right; by eexists].
  cbn [getattr_text]. destruct (ET.text e2) as [t2|]; [|right; by eexists].
  destruct (ET.find ATOM_summary entry) as [e3|]; [|right; by eexists].
  cbn [getattr_text]. destruct (ET.text e3) as [t3|]; [|right; by eexists].
  left. by eexists.
Qed.

(** With its three fields and their texts, an entry gives its record. *)
Lemma entry_record_complete (entry e1 e2 e3 : ET.Element) (t1 t2 t3 : pystr) :
  ET.find ATOM_id entry = Some e1 → ET.text e1 = Some t1 →
  ET.find ATOM_title entry = Some e2 → ET.text e2 = Some t2 →
  ET.find ATOM_summary entry = Some e3 → ET.text e3 = Some t3 →
  ∃ arxiv_id,
    index_last (split SLASH t1) = Ret arxiv_id
    ∧ entry_record entry
      = Ret (SearchResultModel.mk arxiv_id (strip t2) (truncated (strip t3))
               (py "https://arxiv.org/abs/" ++ arxiv_id)).
Proof.
  intros H1 T1 H2 T2 H3 T3.
  destruct (index_last_split SLASH t1) as (seg & Hseg & _).
  exists seg. split; [done|].
  unfold entry_record, mbind, outcome_bind, mret, outcome_ret.
  rewrite H1, H2, H3. cbn [getattr_text]. rewrite T1, T2, T3.
  cbn [call_split call_strip]. by rewrite Hseg.
Qed.

Lemma entry_record_missing (entry : ET.Element) :
  missing_field entry →
  ∃ exc, entry_record entry = Raise exc ∧ exc_type exc = AttributeError.
Proof.
  intros Hm. destruct (entry_record_outcome entry) as [[r Hr]|]; [|done].
  exfalso. revert Hr.
  unfold entry_record, mbind, outcome_bind, mret, outcome_ret.
  destruct (ET.find ATOM_id entry) as [e1|] eqn:H1; [|done].
  cbn [getattr_text]. destruct (ET.text e1) as [t1|]; [|done].
  cbn [call_split]. destruct (index_last_split SLASH t1) as (seg & -> & _).
  destruct (ET.find ATOM_title entry) as [e2|] eqn:H2; [|done].
  cbn [getattr_text]. destruct (ET.text e2) as [t2|]; [|done].
  destruct (ET.find ATOM_summary entry) as [e3|] eqn:H3; [|done].
  destruct Hm as [?|[?|?]]; congruence.
Qed.

(** One entry without a field and the loop ends in [AttributeError],
    whatever it has gathered and wherever the entry stands. *)
Lemma parse_entries_missing (entries : list ET.Element)
    (results : list SearchResultModel.t) :
  (∃ entry, entry ∈ entries ∧ missing_field entry) →
  ∃ exc, parse_entries entries results = Raise exc
         ∧ exc_type exc = AttributeError.
Proof.
  revert results. induction entries as [|e entries IH]; intros results.
  - intros (entry & Hin & _). by apply elem_of_nil in Hin.
  - intros (entry & Hin & Hm). cbn [parse_entries].
    unfold mbind, outcome_bind.
    apply elem_of_cons in Hin as [->|Hin].
    + destruct (entry_record_missing e Hm) as (exc & -> & Hexc).
      by exists exc.
    + destruct (entry_record_outcome e) as [[r ->]|(exc & -> & Hexc)];
        [|by exists exc].
      apply IH. by exists entry.
Qed.

(** What [entry_record] puts in the [id] of a record. *)
Lemma entry_record_id (entry e1 : ET.Element) (t1 : pystr)
    (r : SearchResultModel.t) :
  ET.find ATOM_id entry = Some e1 → ET.text e1 = Some t1 →
  entry_record entry = Ret r →
  index_last (split SLASH t1) = Ret (SearchResultModel.id r).
Proof.
  intros H1 T1. unfold entry_record, mbind, outcome_bind, mret, outcome_ret.
  rewrite H1. cbn [getattr_text]. rewrite T1. cbn [call_split].
  destruct (index_last (split SLASH t1)) as [seg|]; [|done].
  destruct (getattr_text (ET.find ATOM_title entry)) as [x2|]; [|done].
  destruct (call_strip x2); [|done].
  destruct (getattr_text (ET.find ATOM_summary entry)) as [x3|]; [|done].
  destruct (call_strip x3); [|done].
  by intros [= <-].
Qed.

(** C5: the [id] of the record of a feed entry is what follows the final
    "/" of the text of the entry's id field (the whole text when it has
    no "/"), with nothing else taken off it, so that it holds no "/";
    "http://arxiv.org/abs/2403.12345v2" gives "2403.12345v2". *)
Theorem record_id_last_segment :
  (∀ (entry id_elem : ET.Element) (id_text : pystr) (r : SearchResultModel.t),
     ET.find ATOM_id entry = Some id_elem →
     ET.text id_elem = Some id_text →
     entry_record entry = Ret r →
     (SLASH ∉ SearchResultModel.id r)
     ∧ (id_text = SearchResultModel.id r
        ∨ ∃ pre, id_text = pre ++ SLASH :: SearchResultModel.id r))
  ∧ (∀ (entry id_elem : ET.Element) (r : SearchResultModel.t),
       ET.find ATOM_id entry = Some id_elem →
       ET.text id_elem = Some (py "http://arxiv.org/abs/2403.12345v2") →
       entry_record entry = Ret r →
       SearchResultModel.id r = py "2403.12345v2").
Proof.
  split.
  - intros entry e1 t1 r H1 T1 Hr.
    pose proof (entry_record_id _ _ _ _ H1 T1 Hr) as Hid.
    destruct (index_last_split SLASH t1) as (seg & Hseg & Hn & Hs).
    rewrite Hseg in Hid. injection Hid as <-. done.
  - intros entry e1 r H1 T1 Hr.
    pose proof (entry_record_id _ _ _ _ H1 T1 Hr) as Hid.
    by injection Hid as <-.
Qed.

Lemma record_id_last_segment_witness :
  ∃ r, entry_record Sample.entry = Ret r
       ∧ SearchResultModel.id r = py "2403.12345v2"
       ∧ SLASH ∉ SearchResultModel.id r.
Proof.
  destruct (entry_record_complete Sample.entry
              (Sample.field ATOM_id (py "http://arxiv.org/abs/2403.12345v2"))
              (Sample.field ATOM_title (py "  A title "))
              (Sample.field ATOM_summary (py " A summary. "))
              _ _ _ eq_refl eq_refl eq_refl eq_refl eq_refl eq_refl)
    as (arxiv_id & _ & Hr).
  eexists. split; [exact Hr|].
  destruct record_id_last_segment as [Hgen Hex]. split.
  - exact (Hex Sample.entry _ _ eq_refl eq_refl Hr).
  - exact (proj1 (Hgen Sample.entry _ _ _ eq_refl eq_refl Hr)).
Defined.

(** C6: when the feed has an entry without one of its required fields
    (id, title, summary), the search call ends with the exception the
    parse raises, an [AttributeError]: the call is rejected, no record
    sequence and no content block come out of it, whatever the other
    entries are. *)
Theorem missing_field_aborts (w : world) (d : gmap (list N) pyval)
    (query : pyval) (data : pystr) (root : ET.Element) :
  d !! py "query" = Some query →
  session_get_text w (ARXIV_API_URL_format query) = Ret data →
  fromstring w data = Ret root →
  (∃ entry, entry ∈ ET.findall ATOM_entry root ∧ missing_field entry) →
  ∃ exc,
    parse_entries (ET.findall ATOM_entry root) [] = Raise exc
    ∧ run (handle_call_tool w (py "search") (Some d))
      = (Raise exc, [HttpGet (ARXIV_API_URL_format query)])
    ∧ exc_type exc = AttributeError.
Proof.
  intros Hk Hget Hxml Hm.
  destruct (parse_entries_missing _ [] Hm) as (exc & Hp & Hexc).
  exists exc. split_and!; [done| |done].
  rewrite call_search. unfold run, _handle_search.
  destruct (guard_present _ _ _ Hk) as [-> ->].
  unfold session_get, mbind, M_bind, lift, emit. simpl.
  by rewrite Hget, Hxml, Hp.
Qed.

Lemma missing_field_aborts_witness :
  ∃ exc,
    run (handle_call_tool
           (Sample.world_of [Sample.entry; Sample.entry_no_title] (Ret None))
           (py "search") (Sample.args (py "query") (py "cats")))
    = (Raise exc, [HttpGet (ARXIV_API_URL_format (VStr (py "cats")))])
    ∧ exc_type exc = AttributeError.
Proof.
  destruct (missing_field_aborts
              (Sample.world_of [Sample.entry; Sample.entry_no_title] (Ret None))
              {[ py "query" := VStr (py "cats") ]} (VStr (py "cats"))
              (py "<feed/>")
              (Sample.feed [Sample.entry; Sample.entry_no_title]))
    as (exc & _ & Hrun & Hexc).
  - reflexivity.
  - reflexivity.
  - reflexivity.
  - exists Sample.entry_no_title. split.
    + apply (list_elem_of_lookup_2 _ 1%nat). reflexivity.
    + right. left. reflexivity.
  - exists exc. split; [exact Hrun|exact Hexc].
Defined.

(** C8: for the empty sequence of records the formatter returns the
    message "No papers found for the given query." as it is, in one text
    content block; a search whose feed has no entry returns that block. *)
Theorem no_entries_sentinel :
  format_results []
  = [TextContent.mk (py "text") (py "No papers found for the given query.") None]
  ∧ ∀ (w : world) (d : gmap (list N) pyval) (query : pyval) (data : pystr)
      (root : ET.Element),
      d !! py "query" = Some query →
      session_get_text w (ARXIV_API_URL_format query) = Ret data →
      fromstring w data = Ret root →
      ET.findall ATOM_entry root = [] →
      run (handle_call_tool w (py "search") (Some d))
      = (Ret [TextContent.mk (py "text")
                (py "No papers found for the given query.") None],
         [HttpGet (ARXIV_API_URL_format query)]).
Proof.
  split; [done|]. intros w d query data root Hk Hget Hxml Hnone.
  rewrite call_search. unfold run, _handle_search.
  destruct (guard_present _ _ _ Hk) as [-> ->].
  unfold session_get, mbind, M_bind, lift, emit. simpl.
  by rewrite Hget, Hxml, Hnone.
Qed.

Lemma no_entries_sentinel_witness :
  run (handle_call_tool (Sample.world_of [] (Ret None)) (py "search")
         (Sample.args (py "query") (py "cats")))
  = (Ret [TextContent.mk (py "text")
            (py "No papers found for the given query.") None],
     [HttpGet (ARXIV_API_URL_format (VStr (py "cats")))]).
Proof.
  apply (proj2 no_entries_sentinel
           (Sample.world_of [] (Ret None))
           {[ py "query" := VStr (py "cats") ]} (VStr (py "cats"))
           (py "<feed/>") (Sample.feed [])); reflexivity.
Defined.


(** ** Truncation of the summary *)

Lemma truncated_short (summary : pystr) :
  length summary ≤ 500 → truncated summary = summary.
Proof.
  intros Hle. unfold truncated.
  rewrite bool_decide_eq_false_2 by lia.
  by rewrite app_nil_r, take_ge.
Qed.

Lemma truncated_long (summary : pystr) :
  500 < length summary →
  truncated summary = take 500 summary ++ MARKER
  ∧ length (truncated summary) = 503.
Proof.
  intros Hlt. unfold truncated.
  rewrite bool_decide_eq_true_2 by lia. split; [done|].
  rewrite length_app, length_take. change (length MARKER) with 3. lia.
Qed.

(** C3, at a summary of 501 characters: the text of the record is the
    first 500 characters followed by the three characters of the literal
    of line 111, 503 characters in all, and not the 500 characters
    followed by the one ellipsis glyph. *)
Theorem truncated_marker_three_characters :
  ∃ r, entry_record Sample.entry_long = Ret r
       ∧ SearchResultModel.text r = replicate 500 97%N ++ MARKER
       ∧ length (SearchResultModel.text r) = 503
       ∧ SearchResultModel.text r ≠ replicate 500 97%N ++ [ELLIPSIS].
Proof.
  eexists. split; [vm_compute; reflexivity|].
  split_and!; [by vm_compute|by vm_compute|].
  intros H. apply (f_equal length) in H. vm_compute in H. discriminate H.
Qed.

(** ** The result formatter *)

Lemma append_result_block (acc : pystr) (r : SearchResultModel.t) :
  append_result acc r = acc ++ record_block r.
Proof. unfold append_result, record_block. by rewrite <- !(assoc_L (++)). Qed.

Lemma foldl_append_result (results : list SearchResultModel.t) (acc : pystr) :
  foldl append_result acc results = acc ++ concat (record_block <$> results).
Proof.
  revert acc. induction results as [|r results IH]; intros acc; simpl.
  - by rewrite app_nil_r.
  - by rewrite IH, append_result_block, <- (assoc_L (++)).
Qed.

Lemma labelled_line (label x : pystr) : LF ∉ label → LF ∉ x → LF ∉ label ++ x.
Proof. intros Hl Hx. rewrite not_elem_of_app. by split. Qed.

Lemma label_no_LF (label : pystr) :
  forallb (λ c, negb (c =? LF)%N) label = true → LF ∉ label.
Proof.
  induction label as [|c label IH]; simpl; [intros _; apply not_elem_of_nil|].
  rewrite andb_true_iff, negb_true_iff, N.eqb_neq, not_elem_of_cons.
  intros [Hc Hl]. split; [congruence|by apply IH].
Qed.

(** The lines of one block, when no field holds a line break. *)
Lemma split_record_block (r : SearchResultModel.t) (rest : pystr) :
  single_line_record r →
  split LF (record_block r ++ rest) = record_lines r ++ split LF rest.
Proof.
  intros (Hid & Htitle & Htext & Hurl). unfold record_block, record_lines.
  rewrite <- !(assoc_L (++)).
  rewrite (assoc_L (++) (py "ID: ")), <- (app_comm_cons []), (app_nil_l _).
  rewrite split_app_sep
    by (apply labelled_line; [by apply label_no_LF|done]).
  rewrite (assoc_L (++) (py "Title: ")), <- (app_comm_cons []), (app_nil_l _).
  rewrite split_app_sep
    by (apply labelled_line; [by apply label_no_LF|done]).
  rewrite (assoc_L (++) (py "Summary: ")), <- (app_comm_cons []), (app_nil_l _).
  rewrite split_app_sep
    by (apply labelled_line; [by apply label_no_LF|done]).
  rewrite (assoc_L (++) (py "URL: ")).
  change ([LF; LF] ++ rest) with (LF :: LF :: rest).
  rewrite split_app_sep
    by (apply labelled_line; [by apply label_no_LF|done]).
  by rewrite split_cons_sep.
Qed.

Lemma split_blocks (results : list SearchResultModel.t) :
  Forall single_line_record results →
  split LF (concat (record_block <$> results))
  = concat (record_lines <$> results) ++ [[]].
Proof.
  induction 1 as [|r results Hr _ IH]; [done|].
  rewrite !fmap_cons. cbn [concat].
  by rewrite (split_record_block r _ Hr), IH, (assoc_L (++)).
Qed.

Lemma split_header (rest : pystr) :
  split LF (HEADER ++ rest) = py "Search Results:" :: [] :: split LF rest.
Proof.
  unfold HEADER. rewrite <- (assoc_L (++)).
  change ([LF; LF] ++ rest) with (LF :: LF :: rest).
  rewrite split_app_sep by by apply label_no_LF.
  by rewrite split_cons_sep.
Qed.

(** Of the lines of a record, the first alone starts with "ID:". *)
Lemma filter_record_lines (r : SearchResultModel.t) (lines : list pystr) :
  filter (λ line, startswith (py "ID:") line = true) (record_lines r ++ lines)
  = (py "ID: " ++ SearchResultModel.id r)
    :: filter (λ line, startswith (py "ID:") line = true) lines.
Proof.
  unfold record_lines. rewrite filter_app.
  rewrite filter_cons_True by reflexivity.
  rewrite !filter_cons_False by (simpl; discriminate).
  by rewrite filter_nil.
Qed.

Lemma filter_blocks (results : list SearchResultModel.t) :
  filter (λ line, startswith (py "ID:") line = true)
    (concat (record_lines <$> results) ++ [[]])
  = (λ r, py "ID: " ++ SearchResultModel.id r) <$> results.
Proof.
  induction results as [|r results IH]; [done|].
  rewrite !fmap_cons. cbn [concat].
  by rewrite <- (assoc_L (++)), filter_record_lines, IH.
Qed.

(** C7, as the code has it: for a non-empty sequence of records the
    formatter gives one text block, the header "Search Results:" and a
    blank line followed, record after record in input order, by "ID: ",
    "Title: ", "Summary: " and "URL: " each with its field and a line
    break, and one more line break.  When no field holds a line break,
    these are four lines and a blank one per record, and the lines that
    start with "ID:" are one per record, in input order. *)
Theorem format_results_lines (results : list SearchResultModel.t) :
  results ≠ [] →
  ∃ body,
    format_results results = [TextContent.mk (py "text") body None]
    ∧ body = HEADER ++ concat (record_block <$> results)
    ∧ (Forall single_line_record results →
       split LF body
       = py "Search Results:" :: [] :: concat (record_lines <$> results) ++ [[]]
       ∧ id_lines body
         = (λ r, py "ID: " ++ SearchResultModel.id r) <$> results).
Proof.
  intros Hne. destruct results as [|r0 results]; [done|].
  eexists. split; [reflexivity|].
  rewrite foldl_append_result. split; [done|]. intros Hall.
  unfold id_lines. rewrite split_header, (split_blocks _ Hall).
  split; [done|].
  rewrite !filter_cons_False by (simpl; discriminate).
  apply filter_blocks.
Qed.

Lemma format_results_lines_witness :
  entry_record Sample.entry = Ret Sample.record
  ∧ ∃ body,
      format_results [Sample.record] = [TextContent.mk (py "text") body None]
      ∧ id_lines body = [py "ID: " ++ SearchResultModel.id Sample.record].
Proof.
  split; [vm_compute; reflexivity|].
  destruct (format_results_lines [Sample.record])
    as (body & Hf & _ & Hlines); [discriminate|].
  exists body. split; [exact Hf|].
  destruct Hlines as [_ Hid]; [|exact Hid].
  repeat constructor; by apply label_no_LF.
Defined.

(** C7 as stated fails: the summary of a feed entry may hold a line
    break; here the one record gives five lines, two of which start with
    "ID:". *)
Lemma format_results_two_id_lines :
  ∃ r body,
    entry_record Sample.entry_two_lines = Ret r
    ∧ format_results [r] = [TextContent.mk (py "text") body None]
    ∧ split LF body
      = [py "Search Results:"; [];
         py "ID: 2403.12345v2"; py "Title: A title";
         py "Summary: First line"; py "ID: 0000.00000";
         py "URL: https://arxiv.org/abs/2403.12345v2"; []; []]
    ∧ id_lines body = [py "ID: 2403.12345v2"; py "ID: 0000.00000"].
Proof.
  eexists (SearchResultModel.mk _ _ _ _), _.
  split; [vm_compute; reflexivity|].
  split; [reflexivity|]. split; vm_compute; reflexivity.
Qed.


(** ** The handlers, outcome by outcome *)

(** What a search call does once "query" is there. *)
Lemma search_run (w : world) (d : gmap (list N) pyval) (query : pyval) :
  d !! py "query" = Some query →
  run (_handle_search w (Some d))
  = (data ← session_get_text w (ARXIV_API_URL_format query);
     root ← fromstring w data;
     results ← parse_entries (ET.findall ATOM_entry root) [];
     mret (format_results results),
     [HttpGet (ARXIV_API_URL_format query)]).
Proof.
  intros Hk. unfold run, _handle_search.
  destruct (guard_present _ _ _ Hk) as [-> ->].
  unfold session_get, mbind, M_bind, outcome_bind, lift, emit. simpl.
  destruct (session_get_text w _); [|done].
  destruct (fromstring w _); [|done].
  by destruct (parse_entries _ _).
Qed.

(** What a fetch call does once "id" is there. *)
Lemma fetch_run (w : world) (d : gmap (list N) pyval) (arxiv_id : pyval) :
  d !! py "id" = Some arxiv_id →
  run (_handle_fetch w (Some d))
  = match process_latex_source w arxiv_id with
    | Ret (Some flattened) =>
        (Ret [success_block arxiv_id flattened],
         [LogInfo (py "Fetching & processing arXiv paper: " ++ format arxiv_id);
          ProcessLatexSource arxiv_id])
    | Ret None =>
        (Ret [error_block arxiv_id none_plus_str],
         [LogInfo (py "Fetching & processing arXiv paper: " ++ format arxiv_id);
          ProcessLatexSource arxiv_id;
          LogException (py "Error processing arXiv paper " ++ format arxiv_id)])
    | Raise exc =>
        (Ret [error_block arxiv_id exc],
         [LogInfo (py "Fetching & processing arXiv paper: " ++ format arxiv_id);
          ProcessLatexSource arxiv_id;
          LogException (py "Error processing arXiv paper " ++ format arxiv_id)])
    end.
Proof.
  intros Hk. unfold run, _handle_fetch.
  destruct (guard_present _ _ _ Hk) as [-> ->].
  unfold try_except, call_process_latex_source, mbind, M_bind, lift, emit.
  simpl. by destruct (process_latex_source w arxiv_id) as [[t|]|exc].
Qed.

(** A handler whose key is absent rejects the call before any event. *)
Lemma search_rejects (w : world) (d : gmap (list N) pyval) :
  d !! py "query" = None →
  run (_handle_search w (Some d)) = (Raise (missing_argument (py "query")), []).
Proof. intros Hk. unfold run, _handle_search. by rewrite (guard_absent _ _ Hk). Qed.

Lemma fetch_rejects (w : world) (d : gmap (list N) pyval) :
  d !! py "id" = None →
  run (_handle_fetch w (Some d)) = (Raise (missing_argument (py "id")), []).
Proof. intros Hk. unfold run, _handle_fetch. by rewrite (guard_absent _ _ Hk). Qed.

(** ** The catalog and the dispatcher *)

Lemma handler_not_unknown (w : world) (name : pystr)
    (arguments : option (gmap (list N) pyval)) :
  name = py "search" ∨ name = py "fetch" →
  run (handle_call_tool w name arguments) ≠ (Raise (unknown_tool name), []).
Proof.
  intros [-> | ->]; destruct arguments as [d|].
  - rewrite call_search. destruct (d !! py "query") as [q|] eqn:Hk.
    + rewrite (search_run _ _ _ Hk). intros H.
      apply (f_equal snd) in H. discriminate H.
    + rewrite (search_rejects _ _ Hk). intros H.
      vm_compute in H. discriminate H.
  - intros H. vm_compute in H. discriminate H.
  - rewrite call_fetch. destruct (d !! py "id") as [v|] eqn:Hk.
    + rewrite (fetch_run _ _ _ Hk). intros H. apply (f_equal snd) in H.
      by destruct (process_latex_source w v) as [[t|]|exc].
    + rewrite (fetch_rejects _ _ Hk). intros H.
      vm_compute in H. discriminate H.
  - intros H. vm_compute in H. discriminate H.
Qed.

(** X1: the names [handle_list_tools] lists are exactly the names
    [handle_call_tool] dispatches: a call is turned away as an unknown
    tool, before any event, if and only if its name is not in the list. *)
Theorem listed_iff_dispatched (w : world) (name : pystr)
    (arguments : option (gmap (list N) pyval)) :
  name ∈ (Tool.name <$> handle_list_tools)
  ↔ run (handle_call_tool w name arguments) ≠ (Raise (unknown_tool name), []).
Proof.
  change (Tool.name <$> handle_list_tools) with [py "search"; py "fetch"].
  rewrite !elem_of_cons, elem_of_nil. split.
  - intros [H|[H|[]]]; apply handler_not_unknown; auto.
  - intros Hrun.
    destruct (decide (name = py "search")) as [|Hs]; [by left|].
    destruct (decide (name = py "fetch")) as [|Hf]; [by right; left|].
    exfalso. apply Hrun. unfold handle_call_tool.
    by rewrite !bool_decide_eq_false_2.
Qed.

(** X2: every key the schema of a listed tool requires is declared there
    with type "string", and the handler of the tool enforces it: without
    an argument mapping, or with a mapping that lacks the key, the call
    is rejected with the missing-argument error naming that key, before
    any event. *)
Theorem required_keys_enforced (w : world) (t : Tool.t) (key : pystr) :
  t ∈ handle_list_tools →
  key ∈ required_keys (Tool.inputSchema t) →
  property_type key (Tool.inputSchema t) = Some (JStr (py "string"))
  ∧ run (handle_call_tool w (Tool.name t) None)
    = (Raise (missing_argument key), [])
  ∧ ∀ d : gmap (list N) pyval,
      d !! key = None →
      run (handle_call_tool w (Tool.name t) (Some d))
      = (Raise (missing_argument key), []).
Proof.
  unfold handle_list_tools. rewrite !elem_of_cons, elem_of_nil.
  intros [->|[->|[]]]; cbn [Tool.inputSchema Tool.name].
  - change (required_keys _) with [py "query"].
    rewrite list_elem_of_singleton. intros ->.
    split_and!; [done|done|]. intros d Hk. rewrite call_search.
    apply (search_rejects _ _ Hk).
  - change (required_keys _) with [py "id"].
    rewrite list_elem_of_singleton. intros ->.
    split_and!; [done|done|]. intros d Hk. rewrite call_fetch.
    apply (fetch_rejects _ _ Hk).
Qed.

Lemma required_keys_enforced_witness :
  run (handle_call_tool (Sample.world_of [] (Ret None)) (py "fetch")
         (Sample.args (py "query") (py "cats")))
  = (Raise (missing_argument (py "id")), []).
Proof.
  destruct (required_keys_enforced (Sample.world_of [] (Ret None))
              (Tool.mk (py "fetch")
                 (py "Retrieve the full LaTeX source (flattened) for a specific arXiv paper")
                 (JDict
                    [(py "type", JStr (py "object"));
                     (py "properties",
                      JDict [(py "id",
                              JDict [(py "type", JStr (py "string"));
                                     (py "description",
                                      JStr (py "The document id returned by the search tool (arXiv ID, e.g. '2403.12345')"))])]);
                     (py "required", JList [JStr (py "id")])]))
              (py "id")) as (_ & _ & Hd).
  - apply (list_elem_of_lookup_2 _ 1%nat). reflexivity.
  - apply (list_elem_of_lookup_2 _ 0%nat). reflexivity.
  - apply (Hd {[ py "query" := VStr (py "cats") ]}). reflexivity.
Defined.

(** X3: a mapping that holds every key the schema of a listed tool
    requires passes the validation of its handler, whatever the values
    are: the call goes on to its first event. *)
Theorem required_keys_suffice (w : world) (t : Tool.t)
    (d : gmap (list N) pyval) :
  t ∈ handle_list_tools →
  (∀ key, key ∈ required_keys (Tool.inputSchema t) → is_Some (d !! key)) →
  (run (handle_call_tool w (Tool.name t) (Some d))).2 ≠ [].
Proof.
  unfold handle_list_tools. rewrite !elem_of_cons, elem_of_nil.
  intros [->|[->|[]]] Hall; cbn [Tool.inputSchema Tool.name].
  - destruct (Hall (py "query")) as [q Hk];
      [apply (list_elem_of_lookup_2 _ 0%nat); reflexivity|].
    rewrite call_search, (search_run _ _ _ Hk). done.
  - destruct (Hall (py "id")) as [v Hk];
      [apply (list_elem_of_lookup_2 _ 0%nat); reflexivity|].
    rewrite call_fetch, (fetch_run _ _ _ Hk).
    by destruct (process_latex_source w v) as [[x|]|exc].
Qed.

Lemma required_keys_suffice_witness :
  (run (handle_call_tool (Sample.world_of [] (Ret None)) (py "search")
          (Sample.args (py "query") []))).2 ≠ [].
Proof.
  apply (required_keys_suffice (Sample.world_of [] (Ret None))
           (Tool.mk (py "search")
              (py "Search arXiv by free-text query and return matching papers")
              (JDict
                 [(py "type", JStr (py "object"));
                  (py "properties",
                   JDict [(py "query",
                           JDict [(py "type", JStr (py "string"));
                                  (py "description",
                                   JStr (py "Free-text search terms"))])]);
                  (py "required", JList [JStr (py "query")])]))
           {[ py "query" := VStr [] ]}).
  - apply (list_elem_of_lookup_2 _ 0%nat). reflexivity.
  - intros key Hkey. apply list_elem_of_singleton in Hkey as ->.
    exists (VStr []). reflexivity.
Defined.

(** X4: the handlers read their own key and no other: adding or
    changing any other key of the mapping changes nothing of a call,
    neither its outcome nor its events. *)
Theorem extra_keys_ignored (w : world) (d : gmap (list N) pyval)
    (k : pystr) (v : pyval) :
  (k ≠ py "query" →
   run (handle_call_tool w (py "search") (Some (<[k:=v]> d)))
   = run (handle_call_tool w (py "search") (Some d)))
  ∧ (k ≠ py "id" →
     run (handle_call_tool w (py "fetch") (Some (<[k:=v]> d)))
     = run (handle_call_tool w (py "fetch") (Some d))).
Proof.
  split; intros Hne.
  - rewrite !call_search. destruct (d !! py "query") as [q|] eqn:Hk.
    + rewrite (search_run w d q Hk). apply search_run.
      by rewrite lookup_insert_ne.
    + rewrite (search_rejects w d Hk). apply search_rejects.
      by rewrite lookup_insert_ne.
  - rewrite !call_fetch. destruct (d !! py "id") as [x|] eqn:Hk.
    + rewrite (fetch_run w d x Hk). apply fetch_run.
      by rewrite lookup_insert_ne.
    + rewrite (fetch_rejects w d Hk). apply fetch_rejects.
      by rewrite lookup_insert_ne.
Qed.

Lemma extra_keys_ignored_witness :
  run (handle_call_tool (Sample.world_of [] (Ret None)) (py "fetch")
         (Some (<[py "query" := VStr (py "cats")]>
                  {[ py "id" := VStr (py "2403.12345") ]})))
  = run (handle_call_tool (Sample.world_of [] (Ret None)) (py "fetch")
           (Sample.args (py "id") (py "2403.12345"))).
Proof.
  apply (extra_keys_ignored (Sample.world_of [] (Ret None))
           {[ py "id" := VStr (py "2403.12345") ]} (py "query")
           (VStr (py "cats"))).
  discriminate.
Defined.

(** X5: whatever the tool and the arguments, a call that returns gives
    exactly one content block, of type "text"; the block of a search has
    no metadata and the block of a fetch has some. *)
Theorem call_tool_one_text_block (w : world) (name : pystr)
    (arguments : option (gmap (list N) pyval)) (blocks : list TextContent.t) :
  (run (handle_call_tool w name arguments)).1 = Ret blocks →
  ∃ block,
    blocks = [block] ∧ TextContent.type block = py "text"
    ∧ (name = py "search" → TextContent.metadata block = None)
    ∧ (name = py "fetch" → is_Some (TextContent.metadata block)).
Proof.
  unfold handle_call_tool.
  destruct (decide (name = py "search")) as [->|Hs].
  - rewrite bool_decide_eq_true_2 by done.
    destruct arguments as [d|]; [|discriminate].
    destruct (d !! py "query") as [q|] eqn:Hk;
      [rewrite (search_run _ _ _ Hk)|by rewrite (search_rejects _ _ Hk)].
    cbn [fst]. unfold mbind, outcome_bind, mret, outcome_ret.
    destruct (session_get_text w _); [|discriminate].
    destruct (fromstring w _); [|discriminate].
    destruct (parse_entries _ _) as [results|]; [|discriminate].
    intros [= <-]. destruct results; eexists; by split_and!.
  - rewrite (bool_decide_eq_false_2 _ Hs).
    destruct (decide (name = py "fetch")) as [->|Hf].
    + rewrite bool_decide_eq_true_2 by done.
      destruct arguments as [d|]; [|discriminate].
      destruct (d !! py "id") as [v|] eqn:Hk;
        [rewrite (fetch_run _ _ _ Hk)|by rewrite (fetch_rejects _ _ Hk)].
      destruct (process_latex_source w v) as [[t|]|exc]; intros [= <-];
        eexists; split_and!; try done; intros _; by eexists.
    + by rewrite (bool_decide_eq_false_2 _ Hf).
Qed.

Lemma call_tool_one_text_block_witness :
  ∃ block,
    [TextContent.mk (py "text") NO_PAPERS None] = [block]
    ∧ TextContent.type block = py "text".
Proof.
  destruct (call_tool_one_text_block (Sample.world_of [] (Ret None))
              (py "search") (Sample.args (py "query") (py "cats"))
              [TextContent.mk (py "text") NO_PAPERS None])
    as (block & Hb & Ht & _); [reflexivity|].
  exists block. split; [exact Hb|exact Ht].
Defined.

(** ** Events and failures of a call *)

(** X6: a search call makes at most one GET, to the URL of its query,
    and never calls the flattening collaborator nor the logger: its
    events are none when it is rejected for its arguments, and the one
    GET in every other case, whether the call then returns or raises. *)
Theorem search_single_get (w : world)
    (arguments : option (gmap (list N) pyval)) :
  (run (handle_call_tool w (py "search") arguments)
   = (Raise (missing_argument (py "query")), []))
  ∨ ∃ d query,
      arguments = Some d ∧ d !! py "query" = Some query
      ∧ (run (handle_call_tool w (py "search") arguments)).2
        = [HttpGet (ARXIV_API_URL_format query)].
Proof.
  rewrite call_search. destruct arguments as [d|]; [|by left].
  destruct (d !! py "query") as [q|] eqn:Hk.
  - right. exists d, q. by rewrite (search_run _ _ _ Hk).
  - left. apply (search_rejects _ _ Hk).
Qed.

(** X7: a fetch call that passes validation logs the identifier, calls
    the flattening collaborator exactly once, with the identifier as it
    was given, and logs an exception exactly when the collaborator did
    not return a text; it makes no GET. *)
Theorem fetch_events (w : world) (d : gmap (list N) pyval) (arxiv_id : pyval) :
  d !! py "id" = Some arxiv_id →
  ∃ logged,
    (run (handle_call_tool w (py "fetch") (Some d))).2
    = [LogInfo (py "Fetching & processing arXiv paper: " ++ format arxiv_id);
       ProcessLatexSource arxiv_id] ++ logged
    ∧ (logged = []
       ∨ logged
         = [LogException (py "Error processing arXiv paper " ++ format arxiv_id)])
    ∧ (logged = [] ↔ ∃ t, process_latex_source w arxiv_id = Ret (Some t)).
Proof.
  intros Hk. rewrite call_fetch, (fetch_run _ _ _ Hk).
  destruct (process_latex_source w arxiv_id) as [[t|]|exc]; eexists;
    (split; [reflexivity|]).
  - split; [by left|]. split; [by eexists|done].
  - split; [by right|]. split; [done|]. intros [t Ht]; discriminate Ht.
  - split; [by right|]. split; [done|]. intros [t Ht]; discriminate Ht.
Qed.

Lemma fetch_events_witness :
  (run (handle_call_tool (Sample.world_of [] (Raise Sample.failure))
          (py "fetch") (Sample.args (py "id") (py "2403.12345")))).2
  = [LogInfo (py "Fetching & processing arXiv paper: 2403.12345");
     ProcessLatexSource (VStr (py "2403.12345"));
     LogException (py "Error processing arXiv paper 2403.12345")].
Proof.
  destruct (fetch_events (Sample.world_of [] (Raise Sample.failure))
              {[ py "id" := VStr (py "2403.12345") ]}
              (VStr (py "2403.12345")))
    as (logged & Htrace & [-> | ->] & Hiff); [reflexivity| |exact Htrace].
  exfalso. destruct (proj1 Hiff eq_refl) as [t Ht]. discriminate Ht.
Defined.

(** X8: once "id" is present a fetch call never raises, whatever the
    collaborator does (returns a text, returns [None], raises): it
    returns exactly one block, whose metadata holds the identifier under
    "id" and its abstract URL under "url", and holds "source" exactly
    when the collaborator returned a text. *)
Theorem fetch_always_one_block (w : world) (d : gmap (list N) pyval)
    (arxiv_id : pyval) :
  d !! py "id" = Some arxiv_id →
  ∃ block md,
    (run (handle_call_tool w (py "fetch") (Some d))).1 = Ret [block]
    ∧ TextContent.metadata block = Some md
    ∧ md !! py "id" = Some arxiv_id
    ∧ md !! py "url"
      = Some (VStr (py "https://arxiv.org/abs/" ++ format arxiv_id))
    ∧ (md !! py "source" = Some (VStr (py "arXiv"))
       ∨ md !! py "source" = None)
    ∧ (md !! py "source" = Some (VStr (py "arXiv"))
       ↔ ∃ t, process_latex_source w arxiv_id = Ret (Some t)).
Proof.
  intros Hk. rewrite call_fetch, (fetch_run _ _ _ Hk).
  destruct (process_latex_source w arxiv_id) as [[t|]|exc]; eexists _, _;
    (split; [reflexivity|]); (split; [reflexivity|]);
    (split; [reflexivity|]); (split; [reflexivity|]).
  - split; [by left|]. split; [by eexists|done].
  - split; [by right|]. split; [done|]. intros [t Ht]; discriminate Ht.
  - split; [by right|]. split; [done|]. intros [t Ht]; discriminate Ht.
Qed.

Lemma fetch_always_one_block_witness :
  ∃ block,
    (run (handle_call_tool (Sample.world_of [] (Ret None)) (py "fetch")
            (Sample.args (py "id") (py "2403.12345")))).1
    = Ret [block].
Proof.
  destruct (fetch_always_one_block (Sample.world_of [] (Ret None))
              {[ py "id" := VStr (py "2403.12345") ]}
              (VStr (py "2403.12345")))
    as (block & md & Hrun & _); [reflexivity|].
  exists block. exact Hrun.
Defined.

(** X9: when the collaborator returns [None] instead of a text, the
    concatenation with the instructions raises inside the [try], and the
    call returns the error block: its text is the message of that
    [TypeError] and its title starts with "Error: ". *)
Theorem fetch_none_recovered (w : world) (d : gmap (list N) pyval)
    (arxiv_id : pyval) :
  d !! py "id" = Some arxiv_id →
  process_latex_source w arxiv_id = Ret None →
  ∃ block md,
    (run (handle_call_tool w (py "fetch") (Some d))).1 = Ret [block]
    ∧ TextContent.text block
      = py "unsupported operand type(s) for +: 'NoneType' and 'str'"
    ∧ TextContent.metadata block = Some md
    ∧ md !! py "title" = Some (VStr (py "Error: " ++ format arxiv_id))
    ∧ md !! py "source" = None.
Proof.
  intros Hk Hp. rewrite call_fetch, (fetch_run _ _ _ Hk), Hp.
  eexists _, _. by split_and!.
Qed.

Lemma fetch_none_recovered_witness :
  ∃ block,
    (run (handle_call_tool (Sample.world_of [] (Ret None)) (py "fetch")
            (Sample.args (py "id") (py "2403.12345")))).1
    = Ret [block]
    ∧ TextContent.text block
      = py "unsupported operand type(s) for +: 'NoneType' and 'str'".
Proof.
  destruct (fetch_none_recovered (Sample.world_of [] (Ret None))
              {[ py "id" := VStr (py "2403.12345") ]}
              (VStr (py "2403.12345")))
    as (block & md & Hrun & Htext & _); [reflexivity..|].
  exists block. split; [exact Hrun|exact Htext].
Defined.

(** X10: in a search call an exception of the GET or of the reading of
    its body is not caught: the call raises that very exception, after
    the one GET, and the feed parser is never reached. *)
Theorem search_network_error_propagates (w : world)
    (d : gmap (list N) pyval) (query : pyval) (exc : pyexc) :
  d !! py "query" = Some query →
  session_get_text w (ARXIV_API_URL_format query) = Raise exc →
  run (handle_call_tool w (py "search") (Some d))
  = (Raise exc, [HttpGet (ARXIV_API_URL_format query)]).
Proof.
  intros Hk Hget. by rewrite call_search, (search_run _ _ _ Hk), Hget.
Qed.

Lemma search_network_error_propagates_witness :
  run (handle_call_tool
         (World (λ _, Raise Sample.failure) (λ _, Ret (Sample.feed []))
            (λ _, Ret None))
         (py "search") (Sample.args (py "query") (py "cats")))
  = (Raise Sample.failure, [HttpGet (ARXIV_API_URL_format (VStr (py "cats")))]).
Proof.
  apply (search_network_error_propagates
           (World (λ _, Raise Sample.failure) (λ _, Ret (Sample.feed []))
              (λ _, Ret None))
           {[ py "query" := VStr (py "cats") ]} (VStr (py "cats"))
           Sample.failure); reflexivity.
Defined.

(** X11: in a search call an exception of [ET.fromstring] on the body
    that came back is not caught either: the call raises it, and no
    content block is returned for a body that is not XML. *)
Theorem search_xml_error_propagates (w : world)
    (d : gmap (list N) pyval) (query : pyval) (data : pystr) (exc : pyexc) :
  d !! py "query" = Some query →
  session_get_text w (ARXIV_API_URL_format query) = Ret data →
  fromstring w data = Raise exc →
  run (handle_call_tool w (py "search") (Some d))
  = (Raise exc, [HttpGet (ARXIV_API_URL_format query)]).
Proof.
  intros Hk Hget Hxml.
  by rewrite call_search, (search_run _ _ _ Hk), Hget; cbn; rewrite Hxml.
Qed.

Lemma search_xml_error_propagates_witness :
  run (handle_call_tool
         (World (λ _, Ret (py "not xml")) (λ _, Raise Sample.failure)
            (λ _, Ret None))
         (py "search") (Sample.args (py "query") (py "cats")))
  = (Raise Sample.failure, [HttpGet (ARXIV_API_URL_format (VStr (py "cats")))]).
Proof.
  apply (search_xml_error_propagates
           (World (λ _, Ret (py "not xml")) (λ _, Raise Sample.failure)
              (λ _, Ret None))
           {[ py "query" := VStr (py "cats") ]} (VStr (py "cats"))
           (py "not xml") Sample.failure); reflexivity.
Defined.

(** ** More of the feed parser *)

(** Everything a record says about the entry it comes from. *)
Lemma entry_record_inv (entry : ET.Element) (r : SearchResultModel.t) :
  entry_record entry = Ret r →
  ∃ e1 t1 e2 t2 e3 t3,
    ET.find ATOM_id entry = Some e1 ∧ ET.text e1 = Some t1
    ∧ ET.find ATOM_title entry = Some e2 ∧ ET.text e2 = Some t2
    ∧ ET.find ATOM_summary entry = Some e3 ∧ ET.text e3 = Some t3
    ∧ index_last (split SLASH t1) = Ret (SearchResultModel.id r)
    ∧ SearchResultModel.title r = strip t2
    ∧ SearchResultModel.text r = truncated (strip t3)
    ∧ SearchResultModel.url r
      = py "https://arxiv.org/abs/" ++ SearchResultModel.id r.
Proof.
  unfold entry_record, mbind, outcome_bind, mret, outcome_ret.
  destruct (ET.find ATOM_id entry) as [e1|]; [|done].
  cbn [getattr_text]. destruct (ET.text e1) as [t1|] eqn:T1; [|done].
  cbn [call_split].
  destruct (index_last (split SLASH t1)) as [seg|] eqn:Hseg; [|done].
  destruct (ET.find ATOM_title entry) as [e2|]; [|done].
  cbn [getattr_text]. destruct (ET.text e2) as [t2|] eqn:T2; [|done].
  destruct (ET.find ATOM_summary entry) as [e3|]; [|done].
  cbn [getattr_text]. destruct (ET.text e3) as [t3|] eqn:T3; [|done].
  cbn [call_strip]. intros [= <-].
  exists e1, t1, e2, t2, e3, t3. by split_and!.
Qed.

Lemma parse_entries_ok (entries : list ET.Element)
    (results acc : list SearchResultModel.t) :
  Forall2 (λ e r, entry_record e = Ret r) entries results →
  parse_entries entries acc = Ret (acc ++ results).
Proof.
  intros Hall. revert acc.
  induction Hall as [|e r entries results He _ IH]; intros acc.
  - by rewrite app_nil_r.
  - cbn [parse_entries]. unfold mbind, outcome_bind. rewrite He.
    by rewrite IH, <- (assoc_L (++)).
Qed.

Lemma parse_entries_inv (entries : list ET.Element)
    (acc out : list SearchResultModel.t) :
  parse_entries entries acc = Ret out →
  ∃ results,
    out = acc ++ results
    ∧ Forall2 (λ e r, entry_record e = Ret r) entries results.
Proof.
  revert acc. induction entries as [|e entries IH]; intros acc.
  - intros [= <-]. exists []. by rewrite app_nil_r.
  - cbn [parse_entries]. unfold mbind, outcome_bind.
    destruct (entry_record e) as [r|] eqn:He; [|done].
    intros Hp. destruct (IH _ Hp) as (results & -> & Hall).
    exists (r :: results). split; [by rewrite <- (assoc_L (++))|].
    by constructor.
Qed.

(** X12: the loop over the feed gives one record per entry, in the order
    of the entries, and nothing else: it returns exactly when every
    entry gives its record, and what it returns is those records one
    after the other. *)
Theorem parse_entries_in_order (entries : list ET.Element)
    (out : list SearchResultModel.t) :
  parse_entries entries [] = Ret out
  ↔ Forall2 (λ e r, entry_record e = Ret r) entries out.
Proof.
  split.
  - intros Hp. by destruct (parse_entries_inv _ _ _ Hp) as (results & -> & Hall).
  - intros Hall. by rewrite (parse_entries_ok _ _ [] Hall).
Qed.

(** X13: the loop stops at the first entry that raises, with the
    exception of that entry; the entries after it are not looked at, so
    a later defect never changes the outcome. *)
Theorem parse_entries_first_failure (pre post : list ET.Element)
    (entry : ET.Element) (exc : pyexc) (acc : list SearchResultModel.t) :
  Forall (λ e, ∃ r, entry_record e = Ret r) pre →
  entry_record entry = Raise exc →
  parse_entries (pre ++ entry :: post) acc = Raise exc.
Proof.
  intros Hpre He. revert acc.
  induction Hpre as [|e pre [r Hr] _ IH]; intros acc.
  - cbn [app parse_entries]. unfold mbind, outcome_bind. by rewrite He.
  - change ((e :: pre) ++ entry :: post) with (e :: (pre ++ entry :: post)).
    cbn [parse_entries]. unfold mbind, outcome_bind. rewrite Hr. apply IH.
Qed.

Lemma parse_entries_first_failure_witness :
  parse_entries [Sample.entry; Sample.entry_no_title; Sample.entry_long] []
  = Raise (PyExc AttributeError
             (py "'NoneType' object has no attribute 'text'")).
Proof.
  apply (parse_entries_first_failure [Sample.entry] [Sample.entry_long]
           Sample.entry_no_title).
  - constructor; [|constructor]. exists Sample.record.
    vm_compute. reflexivity.
  - reflexivity.
Defined.

(** X14: the whole pipeline of a search: when the GET returns a body,
    the body parses and every entry gives its record, the call returns
    one block without metadata, after the one GET; its text is the
    fixed message when there is no entry, and otherwise the header
    followed by the blocks of the records in the order of the feed. *)
Theorem search_returns_feed_in_order (w : world) (d : gmap (list N) pyval)
    (query : pyval) (data : pystr) (root : ET.Element)
    (results : list SearchResultModel.t) :
  d !! py "query" = Some query →
  session_get_text w (ARXIV_API_URL_format query) = Ret data →
  fromstring w data = Ret root →
  Forall2 (λ e r, entry_record e = Ret r) (ET.findall ATOM_entry root) results →
  run (handle_call_tool w (py "search") (Some d))
  = (Ret [TextContent.mk (py "text")
            (match results with
             | [] => NO_PAPERS
             | _ :: _ => HEADER ++ concat (record_block <$> results)
             end) None],
     [HttpGet (ARXIV_API_URL_format query)]).
Proof.
  intros Hk Hget Hxml Hall.
  rewrite call_search, (search_run _ _ _ Hk).
  unfold mbind, outcome_bind, mret, outcome_ret.
  rewrite Hget. cbv beta iota. rewrite Hxml. cbv beta iota.
  rewrite (parse_entries_ok _ _ [] Hall). cbv beta iota. rewrite app_nil_l.
  destruct results as [|r results]; [done|].
  unfold format_results. by rewrite foldl_append_result.
Qed.

Lemma search_returns_feed_in_order_witness :
  run (handle_call_tool (Sample.world_of [Sample.entry] (Ret None))
         (py "search") (Sample.args (py "query") (py "cats")))
  = (Ret [TextContent.mk (py "text")
            (HEADER ++ concat (record_block <$> [Sample.record])) None],
     [HttpGet (ARXIV_API_URL_format (VStr (py "cats")))]).
Proof.
  apply (search_returns_feed_in_order
           (Sample.world_of [Sample.entry] (Ret None))
           {[ py "query" := VStr (py "cats") ]} (VStr (py "cats"))
           (py "<feed/>") (Sample.feed [Sample.entry]) [Sample.record]).
  - reflexivity.
  - reflexivity.
  - reflexivity.
  - constructor; [|constructor]. vm_compute. reflexivity.
Defined.

(** X15: an entry gives a record exactly when each of its three fields
    (id, title, summary) is there and has a text: a field that is
    present but empty makes the entry fail like a missing one. *)
Theorem entry_record_iff_complete (entry : ET.Element) :
  (∃ r, entry_record entry = Ret r)
  ↔ Forall (λ tag, ∃ c t, ET.find tag entry = Some c ∧ ET.text c = Some t)
      FIELDS.
Proof.
  unfold FIELDS. split.
  - intros [r Hr].
    destruct (entry_record_inv _ _ Hr)
      as (e1 & t1 & e2 & t2 & e3 & t3 & H1 & T1 & H2 & T2 & H3 & T3 & _).
    repeat constructor; eauto.
  - intros Hall.
    apply Forall_cons in Hall as [(e1 & t1 & H1 & T1) Hall].
    apply Forall_cons in Hall as [(e2 & t2 & H2 & T2) Hall].
    apply Forall_cons in Hall as [(e3 & t3 & H3 & T3) _].
    destruct (entry_record_complete _ _ _ _ _ _ _ H1 T1 H2 T2 H3 T3)
      as (arxiv_id & _ & Hr).
    by eexists.
Qed.

(** ** Children, fields and identifiers *)


Lemma head_filter_None {A} (P : A → Prop) `{∀ x, Decision (P x)} (l : list A) :
  head (filter P l) = None ↔ Forall (λ x, ¬ P x) l.
Proof.
  induction l as [|a l IH]; [by split; [constructor|]|].
  destruct (decide (P a)) as [Ha|Ha].
  - rewrite (filter_cons_True _ _ _ Ha). split; [done|].
    intros Hall. apply Forall_cons in Hall as [Hn _]. done.
  - rewrite (filter_cons_False _ _ _ Ha), IH, Forall_cons. tauto.
Qed.


(** X17: an entry lacks a required field, in the sense in which the
    loop aborts on it, exactly when for one of the three tags none of
    its direct children has that tag; a field nested deeper does not
    count. *)
Theorem missing_field_no_child (entry : ET.Element) :
  missing_field entry
  ↔ ∃ tag, tag ∈ FIELDS ∧ Forall (λ x, ET.tag x ≠ tag) (ET.children entry).
Proof.
  unfold missing_field, FIELDS, ET.find, ET.findall.
  rewrite (head_filter_None (λ x, ET.tag x = ATOM_id)),
    (head_filter_None (λ x, ET.tag x = ATOM_title)),
    (head_filter_None (λ x, ET.tag x = ATOM_summary)). split.
  - intros [H|[H|H]]; eexists; (split; [|exact H]).
    + apply (list_elem_of_lookup_2 _ 0%nat). reflexivity.
    + apply (list_elem_of_lookup_2 _ 1%nat). reflexivity.
    + apply (list_elem_of_lookup_2 _ 2%nat). reflexivity.
  - intros (tag & Hin & Hall).
    rewrite !elem_of_cons, elem_of_nil in Hin.
    destruct Hin as [->|[->|[->|[]]]]; tauto.
Qed.

Lemma split_last_app sep (pre seg : pystr) :
  sep ∉ seg → last (split sep (pre ++ sep :: seg)) = Some seg.
Proof.
  intros Hn. induction pre as [|c pre IH].
  - rewrite app_nil_l, split_cons_sep, (split_no_sep _ _ Hn). done.
  - change ((c :: pre) ++ sep :: seg) with (c :: (pre ++ sep :: seg)).
    cbn [split]. destruct (N.eqb_spec c sep) as [->|Hc].
    + destruct (split sep (pre ++ sep :: seg)) as [|p ps] eqn:E;
        [by destruct (split_nonempty sep (pre ++ sep :: seg))|].
      by rewrite last_cons_cons.
    + destruct (split sep (pre ++ sep :: seg)) as [|p ps] eqn:E;
        [by destruct (split_nonempty sep (pre ++ sep :: seg))|].
      destruct ps as [|q ps].
      * destruct (split_singleton _ _ _ E) as [_ Hno]. exfalso.
        apply Hno. rewrite elem_of_app. right. by left.
      * by rewrite last_cons_cons in *.
Qed.

(** X18: the [url] of a record is "https://arxiv.org/abs/" followed by
    its [id], and reading the identifier back from that URL, the way the
    loop reads it from the id field, gives the same [id]. *)
Theorem record_url_gives_back_id (entry : ET.Element)
    (r : SearchResultModel.t) :
  entry_record entry = Ret r →
  SearchResultModel.url r = py "https://arxiv.org/abs/" ++ SearchResultModel.id r
  ∧ index_last (split SLASH (SearchResultModel.url r))
    = Ret (SearchResultModel.id r).
Proof.
  intros Hr.
  destruct (entry_record_inv _ _ Hr)
    as (e1 & t1 & _ & _ & _ & _ & _ & _ & _ & _ & _ & _ & Hid & _ & _ & Hurl).
  split; [done|]. rewrite Hurl.
  destruct (index_last_split SLASH t1) as (seg & Hseg & Hn & _).
  rewrite Hseg in Hid. injection Hid as ->.
  change (py "https://arxiv.org/abs/" ++ SearchResultModel.id r)
    with (py "https://arxiv.org/abs" ++ SLASH :: SearchResultModel.id r).
  unfold index_last. by rewrite (split_last_app _ _ _ Hn).
Qed.

Lemma record_url_gives_back_id_witness :
  index_last (split SLASH (SearchResultModel.url Sample.record))
  = Ret (SearchResultModel.id Sample.record).
Proof.
  apply (record_url_gives_back_id Sample.entry Sample.record).
  vm_compute. reflexivity.
Defined.

(** X19: search and fetch agree on the address of a paper: fetching
    with the [id] of a record of a search returns a block whose metadata
    holds that [id] and, under "url", the [url] of the record, whether
    the flattening succeeds or not. *)
Theorem fetch_of_search_result (w : world) (entry : ET.Element)
    (r : SearchResultModel.t) (d : gmap (list N) pyval) :
  entry_record entry = Ret r →
  d !! py "id" = Some (VStr (SearchResultModel.id r)) →
  ∃ block md,
    (run (handle_call_tool w (py "fetch") (Some d))).1 = Ret [block]
    ∧ TextContent.metadata block = Some md
    ∧ md !! py "id" = Some (VStr (SearchResultModel.id r))
    ∧ md !! py "url" = Some (VStr (SearchResultModel.url r)).
Proof.
  intros Hr Hk.
  destruct (entry_record_inv _ _ Hr)
    as (e1 & t1 & _ & _ & _ & _ & _ & _ & _ & _ & _ & _ & _ & _ & _ & Hurl).
  rewrite call_fetch, (fetch_run _ _ _ Hk), Hurl.
  destruct (process_latex_source w _) as [[t|]|exc]; eexists _, _;
    by split_and!.
Qed.

Lemma fetch_of_search_result_witness :
  ∃ block md,
    (run (handle_call_tool (Sample.world_of [] (Ret (Some (py "\title{T}"))))
            (py "fetch") (Sample.args (py "id") (py "2403.12345v2")))).1
    = Ret [block]
    ∧ TextContent.metadata block = Some md
    ∧ md !! py "url" = Some (VStr (py "https://arxiv.org/abs/2403.12345v2")).
Proof.
  destruct (fetch_of_search_result
              (Sample.world_of [] (Ret (Some (py "\title{T}"))))
              Sample.entry Sample.record
              {[ py "id" := VStr (py "2403.12345v2") ]})
    as (block & md & Hrun & Hmd & _ & Hurl).
  - vm_compute. reflexivity.
  - reflexivity.
  - exists block, md. split; [exact Hrun|]. split; [exact Hmd|exact Hurl].
Defined.

(** ** The string operations *)

Lemma join_cons (sep : N) (piece : pystr) (pieces : list pystr) :
  pieces ≠ [] → join sep (piece :: pieces) = piece ++ sep :: join sep pieces.
Proof. by destruct pieces. Qed.

(** X20: [split] loses nothing and cuts at every separator: joining the
    pieces with the separator gives the string back, no piece holds the
    separator, and there is one piece more than there are separators in
    the string. *)
Theorem split_join (sep : N) (s : pystr) :
  join sep (split sep s) = s
  ∧ Forall (λ piece, sep ∉ piece) (split sep s)
  ∧ length (split sep s) = S (length (filter (λ c, c = sep) s)).
Proof.
  induction s as [|c s (Hjoin & Hfree & Hlen)].
  - split_and!; [done| |done]. repeat constructor. apply not_elem_of_nil.
  - cbn [split]. destruct (N.eqb_spec c sep) as [->|Hc].
    + rewrite (filter_cons_True (λ c, c = sep)) by done. split_and!.
      * rewrite join_cons by apply split_nonempty.
        by rewrite app_nil_l, Hjoin.
      * constructor; [apply not_elem_of_nil|done].
      * cbn [length]. by rewrite Hlen.
    + rewrite (filter_cons_False (λ c, c = sep)) by done.
      destruct (split sep s) as [|p ps] eqn:E;
        [by destruct (split_nonempty sep s)|].
      apply Forall_cons in Hfree as [Hp Hps]. split_and!.
      * destruct ps as [|q ps]; [by rewrite <- Hjoin|].
        rewrite join_cons by done. rewrite join_cons in Hjoin by done.
        by rewrite <- Hjoin.
      * constructor; [|done]. rewrite not_elem_of_cons. by split; [congruence|].
      * done.
Qed.

Lemma lstrip_spec (s : pystr) :
  ∃ lead,
    s = lead ++ lstrip s ∧ Forall (λ c, isspace c = true) lead
    ∧ match head (lstrip s) with
      | Some c => isspace c = false
      | None => True
      end.
Proof.
  induction s as [|c s (lead & Hs & Hlead & Hhead)].
  - exists []. by split_and!.
  - cbn [lstrip]. destruct (isspace c) eqn:Hc.
    + exists (c :: lead). split_and!; [by rewrite Hs at 1|by constructor|done].
    + exists []. by split_and!.
Qed.

Lemma rstrip_spec (s : pystr) :
  ∃ trail,
    s = rstrip s ++ trail ∧ Forall (λ c, isspace c = true) trail
    ∧ match last (rstrip s) with
      | Some c => isspace c = false
      | None => True
      end.
Proof.
  unfold rstrip. destruct (lstrip_spec (reverse s)) as (lead & Hs & Hlead & Hhead).
  exists (reverse lead). split_and!.
  - rewrite <- reverse_app, <- Hs. by rewrite reverse_involutive.
  - by apply Forall_reverse.
  - by rewrite last_reverse.
Qed.

Lemma lstrip_fixed (s : pystr) :
  match head s with Some c => isspace c = false | None => True end →
  lstrip s = s.
Proof. destruct s as [|c s]; [done|]. cbn. by intros ->. Qed.

(** X21: [strip] removes white space from the two ends and nothing else:
    the string is some white space, then the stripped string, then some
    white space; the stripped string neither starts nor ends with white
    space; stripping it again changes nothing. *)
Theorem strip_trims (s : pystr) :
  (∃ lead trail,
     s = lead ++ strip s ++ trail
     ∧ Forall (λ c, isspace c = true) lead
     ∧ Forall (λ c, isspace c = true) trail)
  ∧ match head (strip s) with Some c => isspace c = false | None => True end
  ∧ match last (strip s) with Some c => isspace c = false | None => True end
  ∧ strip (strip s) = strip s.
Proof.
  unfold strip.
  destruct (lstrip_spec s) as (lead & Hs & Hlead & Hhead).
  destruct (rstrip_spec (lstrip s)) as (trail & Ht & Htrail & Hlast).
  assert (match head (rstrip (lstrip s)) with
          | Some c => isspace c = false
          | None => True
          end) as Hh.
  { rewrite Ht in Hhead. by destruct (rstrip (lstrip s)). }
  split_and!; [|done|done|].
  - exists lead, trail. split_and!; [|done|done]. by rewrite <- Ht.
  - rewrite (lstrip_fixed _ Hh). unfold rstrip at 1.
    rewrite lstrip_fixed; [apply reverse_involutive|].
    by rewrite head_reverse.
Qed.

(** X22: truncation keeps the first 500 characters of a summary where
    they are, leaves a summary of at most 500 characters as it is, and
    changes nothing when applied to its own result. *)
Theorem truncated_keeps_prefix (summary : pystr) :
  take 500 (truncated summary) = take 500 summary
  ∧ truncated (take 500 summary) = take 500 summary
  ∧ truncated (truncated summary) = truncated summary.
Proof.
  assert (truncated (take 500 summary) = take 500 summary) as Hshort.
  { apply truncated_short. rewrite length_take. lia. }
  split_and!; [|done|].
  - unfold truncated. destruct (decide (500 < length summary)) as [Hlt|Hle].
    + rewrite bool_decide_eq_true_2 by done.
      rewrite take_app_le by (rewrite length_take; lia). apply take_idemp.
    + rewrite bool_decide_eq_false_2 by done.
      by rewrite app_nil_r, take_idemp.
  - destruct (decide (500 < length summary)) as [Hlt|Hle].
    + destruct (truncated_long _ Hlt) as [Heq Hlen].
      destruct (truncated_long (truncated summary)) as [Heq' _]; [lia|].
      rewrite Heq'. rewrite Heq at 1.
      rewrite take_app_le by (rewrite length_take; lia).
      by rewrite take_idemp, Heq.
    + rewrite (truncated_short summary) by lia. apply truncated_short. lia.
Qed.
